(** * server.js: the chatbot backend, embedded and verified

    The three POST handlers of [src/server.js] (the Gemini chat with function
    calling, the echo endpoint and the session persistence endpoint) are
    written here as executable functions over
    - JSON values as JavaScript sees them ([Js.value]),
    - an error-and-trace monad [M] (a [throw] is [inl], every call that leaves
      the process is recorded as an [event]),
    - a [world] record holding what the process cannot decide by itself: the
      replies of the model, of the weather API, of MongoDB, and the clock.

    The chat handler is embedded as it is shipped: [chat.sendMessage] resolves
    to the object [{ response }], the handler calls [functionCalls()] on that
    object (line 118) and not on its [response], and the call throws. *)

From Stdlib Require Import String Ascii List ZArith Bool Lia DecimalString.
Import ListNotations.
Local Open Scope string_scope.
Set Warnings "-register-all".

(** ** JavaScript values *)

Module Js.

(** What [JSON.parse] can produce. A number [VNum n] is the double whose value
    is the integer [n]; it is one for every safe integer ([exactNumber]), and
    what is proved about the printing of numbers is proved for those. An
    object is the list of its own properties, looked up from the head. *)
Inductive value : Type :=
  | VUndefined
  | VNull
  | VBool (b : bool)
  | VNum (n : Z)
  | VStr (s : string)
  | VArr (items : list value)
  | VObj (props : list (string * value)).

Definition obj : Type := list (string * value).

(** A thrown [Error]: its constructor name and its [message]. *)
Record error : Type := Error { name : string; message : string }.

Definition TypeError (msg : string) : error := Error "TypeError" msg.

(** ToBoolean, the test behind [!x] and [x || y]. *)
Definition truthy (v : value) : bool :=
  match v with
  | VUndefined | VNull => false
  | VBool b => b
  | VNum n => negb (n =? 0)%Z
  | VStr s => negb (s =? "")
  | VArr _ | VObj _ => true
  end.

(** [x || y] *)
Definition or (x y : value) : value := if truthy x then x else y.

Fixpoint hasOwn (o : obj) (k : string) : bool :=
  match o with
  | [] => false
  | (k', _) :: rest => if k' =? k then true else hasOwn rest k
  end.

(** [o.k] on an object of own data properties, for a key [k] that
    [Object.prototype] does not define: the property or [undefined]. *)
Fixpoint get (o : obj) (k : string) : value :=
  match o with
  | [] => VUndefined
  | (k', v) :: rest => if k' =? k then v else get rest k
  end.

(** The safe integers, [-(2^53 - 1) .. 2^53 - 1]: every one of them is a
    double, and [JSON.parse] reads its digits without rounding. *)
Definition exactNumber (n : Z) : bool :=
  (Z.abs n <=? 9007199254740991)%Z.

(** Number::toString of a safe integer: its decimal digits. (From 10^21 on
    JavaScript prints an exponent; those numbers are not safe integers.) *)
Definition numberToString (n : Z) : string :=
  NilZero.string_of_int (Z.to_int n).

(** ToString, as a template literal and [+] on a string apply it. An array is
    joined with commas ([null] and [undefined] items print as nothing); a plain
    object prints through [Object.prototype.toString], unless an own data
    property shadows [toString]: nothing callable is left and the conversion
    throws. *)
Fixpoint toString (v : value) : error + string :=
  match v with
  | VUndefined => inr "undefined"
  | VNull => inr "null"
  | VBool true => inr "true"
  | VBool false => inr "false"
  | VNum n => inr (numberToString n)
  | VStr s => inr s
  | VArr items =>
      let item (x : value) : error + string :=
        match x with
        | VUndefined | VNull => inr ""
        | _ => toString x
        end in
      (fix join (l : list value) : error + string :=
         match l with
         | [] => inr ""
         | [x] => item x
         | x :: rest =>
             match item x with
             | inl e => inl e
             | inr s =>
                 match join rest with
                 | inl e => inl e
                 | inr t => inr (s ++ "," ++ t)
                 end
             end
         end) items
  | VObj props =>
      if hasOwn props "toString"
      then inl (TypeError "Cannot convert object to primitive value")
      else inr "[object Object]"
  end.

(** The numbers [toString] prints of a value are safe integers: the ones of
    the value itself and of the items of an array, at any depth (the numbers
    inside an object are not printed). *)
Fixpoint printsExactly (v : value) : bool :=
  match v with
  | VNum n => exactNumber n
  | VArr items =>
      (fix all (l : list value) : bool :=
         match l with
         | [] => true
         | x :: rest => printsExactly x && all rest
         end) items
  | _ => true
  end.

Definition readOfNullish (what k : string) : error :=
  TypeError ("Cannot read properties of " ++ what ++ " (reading '" ++ k ++ "')").

(** [v.k] for the keys the program reads off fetched data ([name], [main],
    [temp], [weather], [description], [length]): reading off [undefined] or
    [null] throws; a primitive or an array has none of them but [length]. *)
Definition member (v : value) (k : string) : error + value :=
  match v with
  | VUndefined => inl (readOfNullish "undefined" k)
  | VNull => inl (readOfNullish "null" k)
  | VObj props => inr (get props k)
  | VArr items =>
      inr (if k =? "length" then VNum (Z.of_nat (List.length items)) else VUndefined)
  | VStr s =>
      inr (if k =? "length" then VNum (Z.of_nat (String.length s)) else VUndefined)
  | VBool _ | VNum _ => inr VUndefined
  end.

(** [v[0]] *)
Definition first (v : value) : error + value :=
  match v with
  | VUndefined => inl (readOfNullish "undefined" "0")
  | VNull => inl (readOfNullish "null" "0")
  | VArr items => inr (nth 0 items VUndefined)
  | VObj props => inr (get props "0")
  | VStr (String c _) => inr (VStr (String c EmptyString))
  | VStr EmptyString | VBool _ | VNum _ => inr VUndefined
  end.

(** [v?.length]: [undefined] on a nullish [v], the property otherwise. The
    length of a string is counted in bytes here; it is zero exactly when the
    string is empty, which is all the handler asks of it. *)
Definition optLength (v : value) : value :=
  match v with
  | VUndefined | VNull => VUndefined
  | _ => match member v "length" with inr n => n | inl _ => VUndefined end
  end.

(** The characters of a string, as its iterator yields them: a UTF-8 lead
    byte with the continuation bytes ([10xxxxxx]) that follow it. *)
Definition isContinuation (c : ascii) : bool :=
  let n := nat_of_ascii c in ((128 <=? n) && (n <? 192))%nat.

Fixpoint chunks (s : string) : string * list string :=
  match s with
  | EmptyString => (EmptyString, [])
  | String c rest =>
      let '(pending, done) := chunks rest in
      if isContinuation c then (String c pending, done)
      else (EmptyString, String c pending :: done)
  end.

Definition characters (s : string) : list string :=
  let '(pending, done) := chunks s in
  match pending with
  | EmptyString => done
  | _ => pending :: done
  end.

(** [...v] inside an array literal. *)
Definition spread (v : value) : error + list value :=
  match v with
  | VArr items => inr items
  | VStr s => inr (map VStr (characters s))
  | VUndefined => inl (TypeError "undefined is not iterable")
  | VNull => inl (TypeError "null is not iterable")
  | VBool _ | VNum _ | VObj _ => inl (TypeError "object is not iterable")
  end.

End Js.

Import Js.

(** ** What the process talks to *)

(** A function call the model asks for. The SDK declares it as
    [{ name: string; args: object }]. *)
Record functionCall : Type := FunctionCall { fc_name : string; fc_args : obj }.

(** What the handler reads off the value [chat.sendMessage] resolves to:
    [functionCalls()] and [response.text()]. *)
Record reply : Type := Reply { functionCalls : list functionCall; text : string }.

(** An entry of the chat history: what was sent with [sendMessage] (the user
    message, or the [functionResponse] part in its array) or what the model
    answered. *)
Inductive content : Type :=
  | UserMessage (message : value)
  | FunctionResponse (name : string) (response : value)
  | ModelContent (r : reply).

(** [new Date(v)] and [new Date()] *)
Inductive date : Type :=
  | DateOf (v : value)
  | DateAt (instant : Z).

(** The constructor [new Date(v)] first converts [v] to a primitive; for an
    object or an array that ends in its [toString], and throws where
    [toString] throws. A primitive gives a date (maybe an invalid one). *)
Definition newDate (v : value) : error + date :=
  match toString v with
  | inl e => inl e
  | inr _ => inr (DateOf v)
  end.

(** The document [novaSessao] inserted into [sessoesChat]. *)
Record sessao : Type := Sessao {
  sessionId : value;
  userId : value;
  botId : value;
  startTime : date;
  endTime : date;
  messages : value;
  loggedAt : date
}.

(** Every call that leaves the handler, in the order it happens. *)
Inductive event : Type :=
  | ModelCall (history : list content) (sent : content)
  | Invoke (functionName : string) (args : obj)
  | HttpGet (url : string)
  | InsertOne (collection : string) (doc : sessao)
  | ConsoleError (e : error).

(** The environment of one request. [OPENWEATHER_API_KEY] is the variable of
    [process.env]: a string or nothing. [dbHistoria] is the module variable of
    that name: [None] while [initializeDatabases] has not assigned it, the
    outcome of [insertOne] afterwards. [objectPrototypeCall] is what a method
    inherited from [Object.prototype] does when called on
    [availableFunctions]. [validateChatHistory] is the check the SDK makes of
    the history a chat starts from: the error it throws, if any. *)
Record world : Type := World {
  validateChatHistory : list content -> option error;
  generateContent : list content -> content -> error + reply;
  axiosGet : string -> error + value;
  OPENWEATHER_API_KEY : option string;
  localeNow : string;
  now : Z;
  objectPrototypeCall : string -> obj -> error + value;
  dbHistoria : option (sessao -> error + unit)
}.

(** ** Exceptions and the trace *)

Definition M (A : Type) : Type := list event -> (error + A) * list event.

Definition ret {A} (a : A) : M A := fun tr => (inr a, tr).

Definition throw {A} (e : error) : M A := fun tr => (inl e, tr).

Definition bind {A B} (m : M A) (k : A -> M B) : M B :=
  fun tr =>
    match m tr with
    | (inr a, tr') => k a tr'
    | (inl e, tr') => (inl e, tr')
    end.

(** [try { body } catch (err) { handler }] *)
Definition tryCatch {A} (body : M A) (handler : error -> M A) : M A :=
  fun tr =>
    match body tr with
    | (inr a, tr') => (inr a, tr')
    | (inl e, tr') => handler e tr'
    end.

Definition emit (ev : event) : M unit := fun tr => (inr tt, (tr ++ [ev])%list).

(** An expression that may throw and touches nothing outside. *)
Definition lift {A} (r : error + A) : M A :=
  match r with
  | inr a => ret a
  | inl e => throw e
  end.

Declare Scope js_scope.
Delimit Scope js_scope with js.
Notation "x <- m ;; k" := (bind m (fun x => k))
  (at level 61, m at next level, right associativity) : js_scope.
Notation "m ;; k" := (bind m (fun _ => k))
  (at level 61, right associativity) : js_scope.
Local Open Scope js_scope.

Definition run {A} (m : M A) : (error + A) * list event := m [].

(** ** Function calling: lines 32-56 *)

(** [getCurrentTime] *)
Definition getCurrentTime (w : world) : M value :=
  ret (VObj [("currentTime", VStr (localeNow w))]).

(** A variable of [process.env] inside a template literal. *)
Definition envToString (x : option string) : string :=
  match x with
  | Some s => s
  | None => "undefined"
  end.

Definition weatherUrl (location apiKey : string) : string :=
  "https://api.openweathermap.org/data/2.5/weather?q=" ++ location
  ++ "&appid=" ++ apiKey ++ "&units=metric&lang=pt_br".

(** [getWeather]: the URL is built before the [try]; the request and the three
    reads off [res.data] are inside it. *)
Definition getWeather (w : world) (args : obj) : M value :=
  let location := get args "location" in
  let apiKey := OPENWEATHER_API_KEY w in
  loc <- lift (toString location) ;;
  let url := weatherUrl loc (envToString apiKey) in
  tryCatch
    (emit (HttpGet url) ;;
     data <- lift (axiosGet w url) ;;
     name <- lift (member data "name") ;;
     main <- lift (member data "main") ;;
     temp <- lift (member main "temp") ;;
     weather <- lift (member data "weather") ;;
     weather0 <- lift (first weather) ;;
     description <- lift (member weather0 "description") ;;
     ret (VObj [("location", name); ("temperature", temp);
                ("description", description)]))
    (fun err =>
       ret (VObj [("error", VStr ("Erro ao obter o clima: " ++ message err))])).

(** The own properties of [availableFunctions]. *)
Inductive tool : Type := GetCurrentTime | GetWeather.

Definition availableFunctions (functionName : string) : option tool :=
  if functionName =? "getCurrentTime" then Some GetCurrentTime
  else if functionName =? "getWeather" then Some GetWeather
  else None.

(** The methods [availableFunctions] inherits from [Object.prototype]
    ([__proto__] is inherited too, but it is an accessor whose value is an
    object, so calling it throws like calling a missing property). *)
Definition objectPrototypeMethods : list string :=
  ["constructor"; "hasOwnProperty"; "isPrototypeOf"; "propertyIsEnumerable";
   "toLocaleString"; "toString"; "valueOf";
   "__defineGetter__"; "__defineSetter__"; "__lookupGetter__"; "__lookupSetter__"].

Definition inherited (functionName : string) : bool :=
  existsb (String.eqb functionName) objectPrototypeMethods.

(** Whether [availableFunctions[functionName]] is a function. *)
Definition callable (functionName : string) : bool :=
  match availableFunctions functionName with
  | Some _ => true
  | None => inherited functionName
  end.

Definition notAFunction : error :=
  TypeError "availableFunctions[functionName] is not a function".

(** [availableFunctions[functionName](args)], the expression of line 123. *)
Definition callFunction (w : world) (functionName : string) (args : obj) : M value :=
  match availableFunctions functionName with
  | Some GetCurrentTime => emit (Invoke functionName args) ;; getCurrentTime w
  | Some GetWeather => emit (Invoke functionName args) ;; getWeather w args
  | None =>
      if inherited functionName
      then emit (Invoke functionName args) ;;
           lift (objectPrototypeCall w functionName args)
      else throw notAFunction
  end.

(** ** The chat session *)

(** Modelled from the spec: the [ChatSession] of the generative-ai SDK, which
    is not part of src/. Section 4.3: the session appends every message it
    sends and every reply it receives to its history, in order, before
    returning control; a failure of the model capability is thrown to the
    caller (and then nothing is appended). [startChat] checks the history it
    is given and throws when the check fails. *)
Record chatSession : Type := ChatSession { history : list content }.

Definition startChat (w : world) (history : list content) : error + chatSession :=
  match validateChatHistory w history with
  | Some e => inl e
  | None => inr (ChatSession history)
  end.

(** What [chat.sendMessage] resolves to: the object [{ response }]. The reply
    of the model, with its [text()] and [functionCalls()], is that one
    property (lines 135 and 140 read [response.response.text()]). *)
Record generateContentResult : Type :=
  GenerateContentResult { result_response : reply }.

Definition sendMessage (w : world) (chat : chatSession) (sent : content)
  : M (generateContentResult * chatSession) :=
  emit (ModelCall (history chat) sent) ;;
  r <- lift (generateContent w (history chat) sent) ;;
  ret (GenerateContentResult r,
       ChatSession (history chat ++ [sent; ModelContent r])%list).

Definition functionCallsIsNotAFunction : error :=
  TypeError "response.functionCalls is not a function".

(** [response.functionCalls()] of line 118, where [response] is what
    [sendMessage] resolved to: that object has no property [functionCalls],
    so what is called is [undefined], and the call throws. It never returns. *)
Definition callFunctionCalls (response : generateContentResult)
  : error + Empty_set :=
  inl functionCallsIsNotAFunction.

(** ** The handlers *)

(** [res.status(status).json(body)] *)
Record response (B : Type) : Type := Response { status : nat; body : B }.
Arguments Response {B} _ _.
Arguments status {B} _.
Arguments body {B} _.

(** [req.body] of [POST /chat]: [historico] is [None] when the field is absent
    (or falsy), the array otherwise; an empty array is truthy. *)
Record chatRequest : Type := ChatRequest {
  req_message : value;
  req_historico : option (list content)
}.

Record chatJson : Type := ChatJson { resposta : string; historico : list content }.

(** [historico || []] *)
Definition orEmpty (historico : option (list content)) : list content :=
  match historico with
  | Some h => h
  | None => []
  end.

(** [app.post('/chat', ...)], lines 83-148. [startChat] is outside the [try]:
    what it throws leaves the handler, and no answer is sent. Inside the
    [try], the call of line 118 never returns, so lines 119-143 (the function
    call, the second message to the model, the two answers with status 200)
    are never reached. *)
Definition postChat (w : world) (req : chatRequest) : M (response chatJson) :=
  let message := req_message req in
  chat <- lift (startChat w (orEmpty (req_historico req))) ;;
  tryCatch
    (r <- sendMessage w chat (UserMessage message) ;;
     let '(response, chat) := r in
     unreachable <- lift (callFunctionCalls response) ;;
     match unreachable : Empty_set with end)
    (fun error =>
       emit (ConsoleError error) ;;
       ret (Response 500 (ChatJson "Erro interno no servidor." []))).

Definition quote : string := String (ascii_of_nat 34) EmptyString.

(** [app.post('/api/chat/processar-mensagem', ...)], lines 151-176 *)
Definition processarMensagem (reqBody : obj) : M (response value) :=
  tryCatch
    (let mensagem := get reqBody "mensagem" in
     let historico := get reqBody "historico" in
     if negb (truthy mensagem)
     then ret (Response 400 (VObj [("error", VStr "Mensagem é obrigatória")]))
     else
       dito <- lift (toString mensagem) ;;
       let respostaBot :=
         "Você disse: " ++ quote ++ dito ++ quote
         ++ ". Resposta automática temporária." in
       anterior <- lift (spread (or historico (VArr []))) ;;
       let novoHistorico :=
         (anterior ++
          [VObj [("from", VStr "user"); ("text", mensagem)];
           VObj [("from", VStr "bot"); ("text", VStr respostaBot)]])%list in
       ret (Response 200 (VObj [("resposta", VStr respostaBot);
                                ("historico", VArr novoHistorico)])))
    (fun err =>
       emit (ConsoleError err) ;;
       ret (Response 500 (VObj [("error", VStr "Erro interno")]))).

(** [app.post('/api/chat/salvar-historico', ...)], lines 179-207 *)
Definition salvarHistorico (w : world) (reqBody : obj) : M (response value) :=
  tryCatch
    (let sessionId := get reqBody "sessionId" in
     let userId := get reqBody "userId" in
     let botId := get reqBody "botId" in
     let startTime := get reqBody "startTime" in
     let endTime := get reqBody "endTime" in
     let messages := get reqBody "messages" in
     match dbHistoria w with
     | None =>
         ret (Response 500
                (VObj [("error", VStr "Sem conexão com o banco de histórico.")]))
     | Some insertOne =>
         if negb (truthy sessionId) || negb (truthy botId)
            || negb (truthy (optLength messages))
         then ret (Response 400 (VObj [("error", VStr "Dados incompletos.")]))
         else
           inicio <- lift (newDate startTime) ;;
           fim <- lift (newDate endTime) ;;
           let novaSessao :=
             Sessao sessionId (or userId (VStr "anonimo")) botId
                    inicio fim messages (DateAt (now w)) in
           emit (InsertOne "sessoesChat" novaSessao) ;;
           lift (insertOne novaSessao) ;;
           ret (Response 201 (VObj [("message", VStr "Histórico salvo!");
                                    ("sessionId", sessionId)]))
     end)
    (fun err =>
       emit (ConsoleError err) ;;
       ret (Response 500 (VObj [("error", VStr "Erro ao salvar histórico.")]))).

(** ** Reading a run *)

(** The outcome of the orchestration, read off the HTTP status. *)
Inductive outcome : Type := Done | Failed.

Definition outcomeOf {B} (r : response B) : outcome :=
  if (status r =? 200)%nat then Done else Failed.

(** How many times a property of [availableFunctions] was called. *)
Definition isInvoke (ev : event) : bool :=
  match ev with Invoke _ _ => true | _ => false end.

Definition invocations (tr : list event) : list event := filter isInvoke tr.

Definition isInsert (ev : event) : bool :=
  match ev with InsertOne _ _ => true | _ => false end.


(** The model capability failed during the run that left the trace [tr]: one
    of the recorded calls was answered with an error. *)
Definition modelFailed (w : world) (tr : list event) : Prop :=
  exists h sent e, In (ModelCall h sent) tr /\ generateContent w h sent = inl e.

Definition internalError : response chatJson :=
  Response 500 (ChatJson "Erro interno no servidor." []).

(** The history a chat request starts from and the message it sends. *)
Definition history0 (req : chatRequest) : list content :=
  orEmpty (req_historico req).

Definition sent0 (req : chatRequest) : content := UserMessage (req_message req).

(** ** Sample environments *)

Definition networkError : error := Error "AxiosError" "Network Error".


Definition modelOverloaded : error :=
  Error "GoogleGenerativeAIFetchError" "[503 Service Unavailable] The model is overloaded.".

Definition saoPaulo : value :=
  VObj [("name", VStr "São Paulo");
        ("main", VObj [("temp", VNum 25)]);
        ("weather", VArr [VObj [("description", VStr "céu limpo")]])].

(** A model that answers a user message with [first] and a tool result with
    [second]. *)
Definition scripted (first second : error + reply)
  : list content -> content -> error + reply :=
  fun _ sent =>
    match sent with
    | UserMessage _ => first
    | _ => second
    end.

Definition sampleWorld (model : list content -> content -> error + reply)
    (http : string -> error + value) (db : option (sessao -> error + unit))
  : world :=
  World (fun _ => None) model http (Some "chave") "02/11/2026, 10:00:00"
        1793613600000 (fun _ _ => inr (VStr "[object Object]")) db.

Definition connected : option (sessao -> error + unit) := Some (fun _ => inr tt).

(** The model answers in plain text. *)
Definition answersText : world :=
  sampleWorld (scripted (inr (Reply [] "Olá! Como posso ajudar?")) (inl modelOverloaded))
    (fun _ => inl networkError) None.

(** The model asks for the weather and the time in one reply, and for the time
    again once it has the weather. *)
Definition asksTwice : world :=
  sampleWorld
    (scripted
       (inr (Reply [FunctionCall "getWeather" [("location", VStr "São Paulo, BR")];
                    FunctionCall "getCurrentTime" []] ""))
       (inr (Reply [FunctionCall "getCurrentTime" []] "")))
    (fun _ => inr saoPaulo) None.

(** The model asks for a function the server does not have. *)
Definition asksStock : world :=
  sampleWorld
    (scripted (inr (Reply [FunctionCall "getStockPrice" [("symbol", VStr "PETR4")]] ""))
              (inr (Reply [] "PETR4 vale R$ 38,00.")))
    (fun _ => inl networkError) None.



(** The persistence endpoint before and after [initializeDatabases] has
    connected. *)
Definition startingUp : world :=
  sampleWorld (scripted (inl modelOverloaded) (inl modelOverloaded))
    (fun _ => inl networkError) None.

Definition online : world :=
  sampleWorld (scripted (inl modelOverloaded) (inl modelOverloaded))
    (fun _ => inl networkError) connected.

(** An SDK that refuses a history whose first entry is not the user's; the
    model behind it answers in plain text. *)
Definition historyMustStartWithUser : error :=
  Error "GoogleGenerativeAIError" "First content should be with role 'user', got model".

Definition picky : world :=
  World (fun h => match h with
                  | [] | UserMessage _ :: _ => None
                  | _ => Some historyMustStartWithUser
                  end)
        (scripted (inr (Reply [] "Olá! Como posso ajudar?")) (inl modelOverloaded))
        (fun _ => inl networkError) (Some "chave") "02/11/2026, 10:00:00"
        1793613600000 (fun _ _ => inr (VStr "[object Object]")) None.

(** ** Connecting to MongoDB: lines 58-75 *)

(** A database handle, as far as the server uses one:
    [collection("sessoesChat").insertOne(doc)]. *)
Definition db : Type := sessao -> error + unit.

(** The MongoDB side of the process: the two URIs of [process.env], what
    [new MongoClient(uri)] followed by [client.connect()] does, and the handle
    [client.db(dbName)] gives. *)
Record mongo : Type := Mongo {
  MONGO_URI_LOGS : option string;
  MONGO_URI_HISTORIA : option string;
  clientConnect : option string -> error + unit;
  clientDb : option string -> string -> db
}.

(** The module variables [dbLogs] and [dbHistoria] of line 62, with the calls
    of [connectToMongoDB] made so far. *)
Record moduleState : Type := ModuleState {
  var_dbLogs : option db;
  var_dbHistoria : option db;
  connectCalls : list (option string * string)
}.

(** [let dbLogs, dbHistoria;] *)
Definition unassigned : moduleState := ModuleState None None [].

(** [connectToMongoDB] *)
Definition connectToMongoDB (m : mongo) (uri : option string) (dbName : string)
    (s : moduleState) : (error + db) * moduleState :=
  let s' := ModuleState (var_dbLogs s) (var_dbHistoria s)
              (connectCalls s ++ [(uri, dbName)])%list in
  match clientConnect m uri with
  | inl e => (inl e, s')
  | inr _ => (inr (clientDb m uri dbName), s')
  end.

(** [initializeDatabases] *)
Definition initializeDatabases (m : mongo) (s : moduleState)
  : (error + unit) * moduleState :=
  match connectToMongoDB m (MONGO_URI_LOGS m) "IIW2023B_Logs" s with
  | (inl e, s1) => (inl e, s1)
  | (inr logs, s1) =>
      let s2 := ModuleState (Some logs) (var_dbHistoria s1) (connectCalls s1) in
      match connectToMongoDB m (MONGO_URI_HISTORIA m) "chatbotHistoriaDB" s2 with
      | (inl e, s3) => (inl e, s3)
      | (inr historia, s3) =>
          (inr tt, ModuleState (var_dbLogs s3) (Some historia) (connectCalls s3))
      end
  end.

(** The environment of a request served while the module variables are [s]. *)
Definition serving (w : world) (s : moduleState) : world :=
  World (validateChatHistory w) (generateContent w) (axiosGet w)
        (OPENWEATHER_API_KEY w) (localeNow w) (now w) (objectPrototypeCall w)
        (var_dbHistoria s).

(** ** More readings of a trace *)

Definition isHttpGet (ev : event) : bool :=
  match ev with HttpGet _ => true | _ => false end.

(** A MongoDB whose history cluster refuses connections. *)
Definition historiaDown : mongo :=
  Mongo (Some "mongodb://logs") (Some "mongodb://historia")
        (fun uri => match uri with
                    | Some "mongodb://logs" => inr tt
                    | _ => inl (Error "MongoServerSelectionError"
                                  "connect ECONNREFUSED 127.0.0.1:27017")
                    end)
        (fun _ _ _ => inr tt).

(** A MongoDB whose logs cluster refuses connections, and one that accepts
    them and stores everything but the session "cheia". *)
Definition connectionRefused : error :=
  Error "MongoServerSelectionError" "connect ECONNREFUSED 127.0.0.1:27017".

Definition logsDown : mongo :=
  Mongo (Some "mongodb://logs") (Some "mongodb://historia")
        (fun uri => match uri with
                    | Some "mongodb://historia" => inr tt
                    | _ => inl connectionRefused
                    end)
        (fun _ _ _ => inr tt).

Definition quotaExceeded : error := Error "MongoServerError" "over quota".

Definition atlas : mongo :=
  Mongo (Some "mongodb://logs") (Some "mongodb://historia")
        (fun _ => inr tt)
        (fun _ dbName doc =>
           match sessionId doc with
           | VStr "cheia" => inl quotaExceeded
           | _ => inr tt
           end).

(** The model asks for the time and would answer the tool result. *)
Definition asksTime : world :=
  sampleWorld
    (scripted (inr (Reply [FunctionCall "getCurrentTime" [("timezone", VStr "UTC")]] ""))
              (inr (Reply [] "São 10 horas.")))
    (fun _ => inl networkError) None.

(** The weather API answers with data that has no temperature. *)
Definition brokenWeather : world :=
  sampleWorld (scripted (inl modelOverloaded) (inl modelOverloaded))
    (fun _ => inr (VObj [("name", VStr "Recife"); ("main", VNull)])) None.

(** A connected history database that is over its quota. *)
Definition overQuota : world :=
  sampleWorld (scripted (inl modelOverloaded) (inl modelOverloaded))
    (fun _ => inl networkError) (Some (fun _ => inl quotaExceeded)).

(** * Properties *)

(** ** Values *)

Example toString_array :
  toString (VArr [VNum 1; VNull; VStr "a"]) = inr "1,,a".
Proof. reflexivity. Qed.

Example characters_utf8 : characters "Você" = ["V"; "o"; "c"; "ê"].
Proof. reflexivity. Qed.



Lemma truthy_nonempty_string (s : string) : s <> "" -> truthy (VStr s) = true.
Proof.
  intros Hs. simpl. destruct (String.eqb_spec s ""); [contradiction | reflexivity].
Qed.

(** ** The trace of a tool call *)

Ltac step := unfold bind, ret, throw, emit, lift, tryCatch; simpl.

(** [getWeather] throws only while building the URL, before any request. *)
Lemma getWeather_throws (w : world) (args : obj) (e : error) (tr : list event) :
  toString (get args "location") = inl e ->
  getWeather w args tr = (inl e, tr).
Proof. intros H. unfold getWeather. step. rewrite H. reflexivity. Qed.

(** Once the URL is built, [getWeather] requests it and returns an object:
    the [error] payload when anything inside the [try] fails, the three fields
    otherwise. *)
Lemma getWeather_returns (w : world) (args : obj) (loc : string) (tr : list event) :
  toString (get args "location") = inr loc ->
  let url := weatherUrl loc (envToString (OPENWEATHER_API_KEY w)) in
  exists result,
    getWeather w args tr = (inr result, (tr ++ [HttpGet url])%list) /\
    (forall e, axiosGet w url = inl e ->
       result = VObj [("error", VStr ("Erro ao obter o clima: " ++ message e))]) /\
    (forall data name main temp weather weather0 description,
       axiosGet w url = inr data ->
       member data "name" = inr name ->
       member data "main" = inr main ->
       member main "temp" = inr temp ->
       member data "weather" = inr weather ->
       first weather = inr weather0 ->
       member weather0 "description" = inr description ->
       result = VObj [("location", name); ("temperature", temp);
                      ("description", description)]).
Proof.
  intros H url. unfold getWeather. step. rewrite H. simpl. fold url.
  destruct (axiosGet w url) as [e | data] eqn:Hget; simpl.
  { eexists; split; [reflexivity |]. split.
    - intros e' He'. inversion He'. reflexivity.
    - intros; discriminate. }
  destruct (member data "name") as [e | name] eqn:Hname; simpl;
    [eexists; split; [reflexivity | split; [intros; discriminate | intros; congruence]] |].
  destruct (member data "main") as [e | main] eqn:Hmain; simpl;
    [eexists; split; [reflexivity | split; [intros; discriminate | intros; congruence]] |].
  destruct (member main "temp") as [e | temp] eqn:Htemp; simpl;
    [eexists; split; [reflexivity | split; [intros; discriminate | intros; congruence]] |].
  destruct (member data "weather") as [e | weather] eqn:Hweather; simpl;
    [eexists; split; [reflexivity | split; [intros; discriminate | intros; congruence]] |].
  destruct (first weather) as [e | weather0] eqn:Hfirst; simpl;
    [eexists; split; [reflexivity | split; [intros; discriminate | intros; congruence]] |].
  destruct (member weather0 "description") as [e | description] eqn:Hdesc; simpl;
    [eexists; split; [reflexivity | split; [intros; discriminate | intros; congruence]] |].
  eexists; split; [reflexivity |]. split; [intros; discriminate |].
  intros. congruence.
Qed.

(** A tool call appends its events to the trace it starts from and depends on
    nothing else of it. *)
Lemma getWeather_frame (w : world) (args : obj) (tr : list event) :
  getWeather w args tr =
  (fst (run (getWeather w args)), (tr ++ snd (run (getWeather w args)))%list).
Proof.
  unfold run, getWeather. step.
  destruct (toString (get args "location")) as [e | loc]; simpl;
    [now rewrite app_nil_r |].
  destruct (axiosGet w _) as [e | data]; simpl; [reflexivity |].
  destruct (member data "name"); simpl; [reflexivity |].
  destruct (member data "main") as [e | main]; simpl; [reflexivity |].
  destruct (member main "temp"); simpl; [reflexivity |].
  destruct (member data "weather") as [e | weather]; simpl; [reflexivity |].
  destruct (first weather) as [e | weather0]; simpl; [reflexivity |].
  destruct (member weather0 "description"); reflexivity.
Qed.

(** What a call through [availableFunctions] leaves in the trace: nothing when
    the property is not a function, the invocation and at most the weather
    request otherwise. *)
Lemma callFunction_events (w : world) (functionName : string) (args : obj) :
  let out := run (callFunction w functionName args) in
  (callable functionName = false /\ out = (inl notAFunction, [])) \/
  (callable functionName = true /\
   (snd out = [Invoke functionName args] \/
    exists url, snd out = [Invoke functionName args; HttpGet url])).
Proof.
  unfold run, callFunction, callable.
  destruct (availableFunctions functionName) as [[|] |]; simpl.
  - right. split; [reflexivity |]. left. reflexivity.
  - right. split; [reflexivity |]. unfold bind, emit. simpl.
    rewrite getWeather_frame. simpl.
    destruct (toString (get args "location")) as [e | loc] eqn:Hloc.
    + left. unfold run. now rewrite (getWeather_throws _ _ _ _ Hloc).
    + right. unfold run.
      destruct (getWeather_returns w args loc [] Hloc) as (res & -> & _).
      eexists. reflexivity.
  - destruct (inherited functionName).
    + right. split; [reflexivity |]. left. step.
      destruct (objectPrototypeCall w functionName args); reflexivity.
    + left. split; reflexivity.
Qed.

(** ** The paths through the chat handler *)

Ltac mstep :=
  cbv beta iota zeta
      delta [bind ret throw emit lift tryCatch sendMessage startChat
             callFunctionCalls history fst snd].

Section Paths.

Variables (w : world) (req : chatRequest).

(** The SDK refuses the history: the exception leaves the handler. *)
Lemma postChat_history_rejected (e : error) :
  validateChatHistory w (history0 req) = Some e ->
  run (postChat w req) = (inl e, []).
Proof.
  unfold history0. intros Hcheck.
  unfold run, postChat. mstep. rewrite Hcheck. reflexivity.
Qed.

(** The model fails on the message. *)
Lemma postChat_first_fails (e : error) :
  validateChatHistory w (history0 req) = None ->
  generateContent w (history0 req) (sent0 req) = inl e ->
  run (postChat w req)
  = (inr internalError, [ModelCall (history0 req) (sent0 req); ConsoleError e]).
Proof.
  unfold history0, sent0. intros Hcheck Hfirst.
  unfold run, postChat. mstep. rewrite Hcheck. mstep. simpl app.
  rewrite Hfirst. reflexivity.
Qed.

(** The model answers: line 118 throws. *)
Lemma postChat_answered (r : reply) :
  validateChatHistory w (history0 req) = None ->
  generateContent w (history0 req) (sent0 req) = inr r ->
  run (postChat w req)
  = (inr internalError,
     [ModelCall (history0 req) (sent0 req);
      ConsoleError functionCallsIsNotAFunction]).
Proof.
  unfold history0, sent0. intros Hcheck Hfirst.
  unfold run, postChat. mstep. rewrite Hcheck. mstep. simpl app.
  rewrite Hfirst. reflexivity.
Qed.

End Paths.

(** ** The chat handler *)

(** C3. Whenever the model capability fails during a chat request, at the
    first call or at the call that carries the tool result, the response is
    the generic internal error (status 500, "Erro interno no servidor.") with
    an empty history: nothing of what the session had appended is returned. *)
Theorem model_failure_fails_request (w : world) (req : chatRequest) :
  modelFailed w (snd (run (postChat w req))) ->
  fst (run (postChat w req))
  = inr (Response 500 (ChatJson "Erro interno no servidor." [])) /\
  (forall resp, fst (run (postChat w req)) = inr resp ->
     outcomeOf resp = Failed /\ historico (body resp) = []).
Proof.
  intros (h & sent & e & Hin & Hfail).
  assert (fst (run (postChat w req)) = inr internalError) as Hresp.
  { destruct (validateChatHistory w (history0 req)) as [e0 |] eqn:Hcheck.
    { rewrite (postChat_history_rejected w req e0 Hcheck) in Hin. destruct Hin. }
    destruct (generateContent w (history0 req) (sent0 req)) as [e0 | r] eqn:Hfirst.
    - now rewrite (postChat_first_fails w req e0 Hcheck Hfirst).
    - now rewrite (postChat_answered w req r Hcheck Hfirst). }
  split; [exact Hresp |].
  intros resp Hr. rewrite Hresp in Hr. inversion Hr. split; reflexivity.
Qed.

Lemma model_failure_fails_request_witness :
  modelFailed startingUp
    (snd (run (postChat startingUp (ChatRequest (VStr "Que horas são?") None)))) /\
  fst (run (postChat startingUp (ChatRequest (VStr "Que horas são?") None)))
  = inr (Response 500 (ChatJson "Erro interno no servidor." [])).
Proof.
  assert (modelFailed startingUp
            (snd (run (postChat startingUp
                         (ChatRequest (VStr "Que horas são?") None))))) as H.
  { exists [], (UserMessage (VStr "Que horas são?")), modelOverloaded.
    split; [| reflexivity]. vm_compute. left. reflexivity. }
  split; [exact H |].
  exact (proj1 (model_failure_fails_request startingUp _ H)).
Defined.

(** What a chat request leaves in the trace when the model has answered: the
    one model call and the logged error, nothing else. *)
Lemma answered_trace (w : world) (req : chatRequest) (r : reply) :
  validateChatHistory w (history0 req) = None ->
  generateContent w (history0 req) (sent0 req) = inr r ->
  fst (run (postChat w req))
  = inr (Response 500 (ChatJson "Erro interno no servidor." [])) /\
  invocations (snd (run (postChat w req))) = [] /\
  (forall url, ~ In (HttpGet url) (snd (run (postChat w req)))) /\
  (forall h functionName result,
     ~ In (ModelCall h (FunctionResponse functionName result))
          (snd (run (postChat w req)))).
Proof.
  intros Hcheck Hfirst. rewrite (postChat_answered w req r Hcheck Hfirst).
  cbn [fst snd]. split; [reflexivity |]. split; [reflexivity |]. split.
  - intros url [H | [H | []]]; discriminate.
  - intros h n res [H | [H | []]]; discriminate.
Qed.

(** C1, as the code has it. The code has no tool executor that turns an
    unknown name into an error payload: the expression
    [availableFunctions[functionName](args)] throws a [TypeError] for a name
    that is not a function of [availableFunctions] (neither [getCurrentTime]
    nor [getWeather], nor a method inherited from [Object.prototype]), without
    invoking anything. A chat request whose reply asks for such a name
    produces no tool result and ends in Failed: status 500, "Erro interno no
    servidor." and an empty history. *)
Theorem unregistered_tool_fails_request (w : world) (req : chatRequest)
    (r : reply) (fc : functionCall) (rest : list functionCall) :
  validateChatHistory w (history0 req) = None ->
  generateContent w (history0 req) (sent0 req) = inr r ->
  functionCalls r = fc :: rest ->
  callable (fc_name fc) = false ->
  run (callFunction w (fc_name fc) (fc_args fc)) = (inl notAFunction, []) /\
  fst (run (postChat w req))
  = inr (Response 500 (ChatJson "Erro interno no servidor." [])) /\
  outcomeOf (Response 500 (ChatJson "Erro interno no servidor." [])) = Failed /\
  invocations (snd (run (postChat w req))) = [] /\
  (forall h functionName result,
     ~ In (ModelCall h (FunctionResponse functionName result))
          (snd (run (postChat w req)))).
Proof.
  intros Hcheck Hfirst _ Hname.
  destruct (answered_trace w req r Hcheck Hfirst) as (Hresp & Hinv & _ & Hsent).
  split.
  - destruct (callFunction_events w (fc_name fc) (fc_args fc)) as [[_ H] | [H _]];
      [exact H | congruence].
  - split; [exact Hresp |]. split; [reflexivity |]. split; assumption.
Qed.

Lemma unregistered_tool_fails_request_witness :
  let req := ChatRequest (VStr "Quanto vale PETR4?") None in
  callable "getStockPrice" = false /\
  run (callFunction asksStock "getStockPrice" [("symbol", VStr "PETR4")])
  = (inl notAFunction, []) /\
  fst (run (postChat asksStock req))
  = inr (Response 500 (ChatJson "Erro interno no servidor." [])).
Proof.
  intros req. split; [reflexivity |].
  destruct (unregistered_tool_fails_request asksStock req
              (Reply [FunctionCall "getStockPrice" [("symbol", VStr "PETR4")]] "")
              (FunctionCall "getStockPrice" [("symbol", VStr "PETR4")]) []
              eq_refl eq_refl eq_refl eq_refl) as (Hcall & Hresp & _).
  split; assumption.
Defined.

(** The model asks for [getStockPrice], which [availableFunctions] does not
    have: no tool result is produced, with or without an error payload, and
    the request fails with status 500 and an empty history. *)
Lemma unregistered_tool_counterexample :
  let req := ChatRequest (VStr "Quanto vale PETR4?") None in
  let fc := FunctionCall "getStockPrice" [("symbol", VStr "PETR4")] in
  generateContent asksStock (history0 req) (sent0 req) = inr (Reply [fc] "") /\
  availableFunctions (fc_name fc) = None /\
  (forall result,
     fst (run (callFunction asksStock (fc_name fc) (fc_args fc))) <> inr result) /\
  (forall h functionName result,
     ~ In (ModelCall h (FunctionResponse functionName result))
          (snd (run (postChat asksStock req)))) /\
  fst (run (postChat asksStock req))
  = inr (Response 500 (ChatJson "Erro interno no servidor." [])) /\
  outcomeOf (Response 500 (ChatJson "Erro interno no servidor." [])) = Failed.
Proof.
  cbv zeta. split; [reflexivity |]. split; [reflexivity |]. split.
  { intros result. vm_compute. discriminate. }
  split.
  { intros h functionName result. vm_compute.
    intros [H | [H | []]]; discriminate. }
  split; reflexivity.
Qed.




(** C5, the code at a failing input. The model answers "Oi" in plain text;
    the handler does not return the reply with the history two entries
    longer: line 118 throws on the object [sendMessage] resolved to, and the
    answer is status 500 with an empty history. *)
Lemma plain_text_reply_is_answered_500 :
  let req := ChatRequest (VStr "Oi") (Some [UserMessage (VStr "Bom dia")]) in
  generateContent answersText (history0 req) (sent0 req)
  = inr (Reply [] "Olá! Como posso ajudar?") /\
  run (postChat answersText req)
  = (inr (Response 500 (ChatJson "Erro interno no servidor." [])),
     [ModelCall [UserMessage (VStr "Bom dia")] (UserMessage (VStr "Oi"));
      ConsoleError (TypeError "response.functionCalls is not a function")]).
Proof. cbv zeta. split; reflexivity. Qed.

(** C4, the code at a failing input. The model asks for [getCurrentTime], a
    known tool, and would answer its result; the handler invokes nothing and
    returns no history of four more entries: line 118 throws, and the answer
    is status 500 with an empty history. *)
Lemma known_tool_request_is_answered_500 :
  let req := ChatRequest (VStr "Que horas são?") None in
  generateContent asksTime (history0 req) (sent0 req)
  = inr (Reply [FunctionCall "getCurrentTime" [("timezone", VStr "UTC")]] "") /\
  availableFunctions "getCurrentTime" = Some GetCurrentTime /\
  run (postChat asksTime req)
  = (inr (Response 500 (ChatJson "Erro interno no servidor." [])),
     [ModelCall [] (UserMessage (VStr "Que horas são?"));
      ConsoleError (TypeError "response.functionCalls is not a function")]) /\
  invocations (snd (run (postChat asksTime req))) = [].
Proof. cbv zeta. repeat split; reflexivity. Qed.


(** C8, the code at a failing input. The first reply carries two function
    calls, [getWeather] and [getCurrentTime]; the handler dispatches neither,
    not even the first, and answers with status 500. *)
Lemma first_call_is_not_dispatched :
  let req := ChatRequest (VStr "Como está o tempo em São Paulo?") None in
  generateContent asksTwice (history0 req) (sent0 req)
  = inr (Reply [FunctionCall "getWeather" [("location", VStr "São Paulo, BR")];
                FunctionCall "getCurrentTime" []] "") /\
  invocations (snd (run (postChat asksTwice req))) = [] /\
  filter isHttpGet (snd (run (postChat asksTwice req))) = [] /\
  fst (run (postChat asksTwice req))
  = inr (Response 500 (ChatJson "Erro interno no servidor." [])).
Proof. cbv zeta. repeat split; reflexivity. Qed.

(** X1. As it is shipped, the chat handler never answers with status 200.
    When the SDK refuses the history, [startChat] throws outside the [try]
    and the handler sends no answer. Otherwise the model is called exactly
    once, with the message and the history as they were sent, and the answer
    is status 500, "Erro interno no servidor." and an empty history: because
    the model failed, or, when it answered, because line 118 calls
    [functionCalls()] on the object [{ response }] and throws. No function of
    [availableFunctions] is invoked and no request leaves the server. *)
Theorem chat_request_never_succeeds (w : world) (req : chatRequest) :
  (forall e,
     validateChatHistory w (orEmpty (req_historico req)) = Some e ->
     run (postChat w req) = (inl e, [])) /\
  (validateChatHistory w (orEmpty (req_historico req)) = None ->
   exists e,
     run (postChat w req)
     = (inr (Response 500 (ChatJson "Erro interno no servidor." [])),
        [ModelCall (orEmpty (req_historico req)) (UserMessage (req_message req));
         ConsoleError e]) /\
     (forall r,
        generateContent w (orEmpty (req_historico req))
          (UserMessage (req_message req)) = inr r ->
        e = TypeError "response.functionCalls is not a function") /\
     (forall e',
        generateContent w (orEmpty (req_historico req))
          (UserMessage (req_message req)) = inl e' ->
        e = e')).
Proof.
  split.
  - intros e Hcheck. exact (postChat_history_rejected w req e Hcheck).
  - intros Hcheck.
    destruct (generateContent w (orEmpty (req_historico req))
                (UserMessage (req_message req))) as [e | r] eqn:Hfirst.
    + exists e. split; [exact (postChat_first_fails w req e Hcheck Hfirst) |].
      split; [intros; discriminate | intros e' H; now inversion H].
    + exists functionCallsIsNotAFunction.
      split; [exact (postChat_answered w req r Hcheck Hfirst) |].
      split; [reflexivity | intros; discriminate].
Qed.

Lemma chat_request_never_succeeds_witness :
  let req := ChatRequest (VStr "Oi") (Some [ModelContent (Reply [] "Olá")]) in
  validateChatHistory picky (orEmpty (req_historico req))
  = Some historyMustStartWithUser /\
  run (postChat picky req) = (inl historyMustStartWithUser, []) /\
  exists e,
    run (postChat picky (ChatRequest (VStr "Oi") None))
    = (inr (Response 500 (ChatJson "Erro interno no servidor." [])),
       [ModelCall [] (UserMessage (VStr "Oi")); ConsoleError e]).
Proof.
  intros req. split; [reflexivity |]. split.
  - exact (proj1 (chat_request_never_succeeds picky req)
             historyMustStartWithUser eq_refl).
  - destruct (proj2 (chat_request_never_succeeds picky (ChatRequest (VStr "Oi") None))
                eq_refl) as (e & Hrun & _).
    exists e. exact Hrun.
Defined.

(** ** The echo endpoint *)

(** C9. A request to [/api/chat/processar-mensagem] with a non-empty message
    is answered with the text [Você disse: "<message>". Resposta automática
    temporária.] and with the input history (the empty list when it is
    absent) followed by exactly two entries, the user message and that reply.
    A request whose message is missing or empty is rejected with status 400
    and "Mensagem é obrigatória", before anything else is done. *)
Theorem processarMensagem_contract (reqBody : obj) :
  (forall (mensagem : string) (anterior : list value),
     get reqBody "mensagem" = VStr mensagem ->
     mensagem <> "" ->
     get reqBody "historico" = VArr anterior \/
     (get reqBody "historico" = VUndefined /\ anterior = []) ->
     let respostaBot :=
       "Você disse: " ++ quote ++ mensagem ++ quote
       ++ ". Resposta automática temporária." in
     run (processarMensagem reqBody)
     = (inr (Response 200
               (VObj [("resposta", VStr respostaBot);
                      ("historico",
                       VArr (anterior ++
                             [VObj [("from", VStr "user"); ("text", VStr mensagem)];
                              VObj [("from", VStr "bot"); ("text", VStr respostaBot)]]
                            )%list)])),
        [])) /\
  (get reqBody "mensagem" = VUndefined \/ get reqBody "mensagem" = VStr "" ->
   run (processarMensagem reqBody)
   = (inr (Response 400 (VObj [("error", VStr "Mensagem é obrigatória")])), [])).
Proof.
  split.
  - intros mensagem anterior Hmsg Hnonempty Hhist respostaBot.
    unfold run, processarMensagem. mstep. rewrite Hmsg.
    rewrite (truthy_nonempty_string mensagem Hnonempty). cbn [negb toString].
    destruct Hhist as [-> | [-> ->]]; reflexivity.
  - intros [Hmsg | Hmsg]; unfold run, processarMensagem; mstep; rewrite Hmsg;
      reflexivity.
Qed.

Lemma processarMensagem_contract_witness :
  let anterior := [VObj [("from", VStr "user"); ("text", VStr "oi")];
                   VObj [("from", VStr "bot"); ("text", VStr "olá")]] in
  let respostaBot :=
    "Você disse: " ++ quote ++ "Quem foi Zumbi?" ++ quote
    ++ ". Resposta automática temporária." in
  run (processarMensagem [("mensagem", VStr "Quem foi Zumbi?");
                          ("historico", VArr anterior)])
  = (inr (Response 200
            (VObj [("resposta", VStr respostaBot);
                   ("historico",
                    VArr (anterior ++
                          [VObj [("from", VStr "user"); ("text", VStr "Quem foi Zumbi?")];
                           VObj [("from", VStr "bot"); ("text", VStr respostaBot)]]
                         )%list)])),
     []) /\
  run (processarMensagem [("historico", VArr anterior)])
  = (inr (Response 400 (VObj [("error", VStr "Mensagem é obrigatória")])), []).
Proof.
  intros anterior respostaBot. split.
  - apply (proj1 (processarMensagem_contract
                    [("mensagem", VStr "Quem foi Zumbi?"); ("historico", VArr anterior)])
             "Quem foi Zumbi?" anterior eq_refl).
    + discriminate.
    + left. reflexivity.
  - apply (proj2 (processarMensagem_contract [("historico", VArr anterior)])).
    left. reflexivity.
Defined.

(** ** More on the echo endpoint *)



(** X8. A history that is truthy but cannot be spread (an object, [true], a
    number other than zero) makes the echo endpoint fail: the [TypeError] is
    caught, logged, and answered with status 500 and "Erro interno". *)
Theorem processarMensagem_history_not_iterable (reqBody : obj) (dito : string) :
  truthy (get reqBody "mensagem") = true ->
  toString (get reqBody "mensagem") = inr dito ->
  (exists props, get reqBody "historico" = VObj props) \/
  get reqBody "historico" = VBool true \/
  (exists n, get reqBody "historico" = VNum n /\ n <> 0%Z) ->
  exists e,
    run (processarMensagem reqBody)
    = (inr (Response 500 (VObj [("error", VStr "Erro interno")])),
       [ConsoleError e]) /\
    name e = "TypeError".
Proof.
  intros Htruthy Hprint Hhist.
  unfold run, processarMensagem. mstep. rewrite Htruthy, Hprint. cbn [negb].
  destruct Hhist as [[props ->] | [-> | (n & -> & Hn)]].
  - eexists. split; reflexivity.
  - eexists. split; reflexivity.
  - unfold or. cbn [truthy]. destruct (Z.eqb_spec n 0); [contradiction |].
    eexists. split; reflexivity.
Qed.

Lemma processarMensagem_history_not_iterable_witness :
  exists e,
    run (processarMensagem
           [("mensagem", VStr "oi"); ("historico", VObj [("0", VStr "x")])])
    = (inr (Response 500 (VObj [("error", VStr "Erro interno")])),
       [ConsoleError e]) /\
    name e = "TypeError".
Proof.
  apply (processarMensagem_history_not_iterable
           [("mensagem", VStr "oi"); ("historico", VObj [("0", VStr "x")])]
           "oi" eq_refl eq_refl).
  left. eexists. reflexivity.
Defined.

(** X9. The echo endpoint always answers, with status 200, 400 or 500, and
    never reaches the model, the weather API or the database: the only thing
    it does besides answering is to log the error behind a 500. It answers 400
    exactly when the message is falsy, which includes [0], [false] and [null]
    besides a missing or empty message. *)
Theorem processarMensagem_always_answers (reqBody : obj) :
  exists resp,
    fst (run (processarMensagem reqBody)) = inr resp /\
    ((status resp = 200 \/ status resp = 400) /\
     snd (run (processarMensagem reqBody)) = [] \/
     resp = Response 500 (VObj [("error", VStr "Erro interno")]) /\
     exists e, snd (run (processarMensagem reqBody)) = [ConsoleError e]) /\
    (status resp = 400 <-> truthy (get reqBody "mensagem") = false).
Proof.
  unfold run, processarMensagem. mstep.
  destruct (truthy (get reqBody "mensagem")); cbn [negb].
  - destruct (toString (get reqBody "mensagem")) as [e | dito]; mstep.
    + eexists. split; [reflexivity |]. split.
      * right. split; [reflexivity |]. eexists. reflexivity.
      * simpl. split; discriminate.
    + destruct (spread (or (get reqBody "historico") (VArr [])))
        as [e | anterior]; mstep.
      * eexists. split; [reflexivity |]. split.
        -- right. split; [reflexivity |]. eexists. reflexivity.
        -- simpl. split; discriminate.
      * eexists. split; [reflexivity |]. split.
        -- left. split; [left |]; reflexivity.
        -- simpl. split; discriminate.
  - eexists. split; [reflexivity |]. split.
    + left. split; [right |]; reflexivity.
    + simpl. split; reflexivity.
Qed.

(** ** The persistence endpoint *)

(** The test of line 186, [!sessionId || !botId || !messages?.length]. *)
Lemma incomplete_test (reqBody : obj) :
  get reqBody "sessionId" = VUndefined \/
  get reqBody "botId" = VUndefined \/
  get reqBody "messages" = VUndefined \/
  get reqBody "messages" = VArr [] ->
  negb (truthy (get reqBody "sessionId")) || negb (truthy (get reqBody "botId"))
  || negb (truthy (optLength (get reqBody "messages"))) = true.
Proof.
  intros [H | [H | [H | H]]]; rewrite H; simpl;
    rewrite ?orb_true_r; reflexivity.
Qed.

Lemma complete_test (reqBody : obj) :
  negb (truthy (get reqBody "sessionId")) || negb (truthy (get reqBody "botId"))
  || negb (truthy (optLength (get reqBody "messages"))) = false ->
  truthy (get reqBody "sessionId") = true /\
  truthy (get reqBody "botId") = true /\
  truthy (optLength (get reqBody "messages")) = true.
Proof.
  intros H. apply orb_false_elim in H. destruct H as [H Hm].
  apply orb_false_elim in H. destruct H as [Hs Hb].
  apply negb_false_iff in Hs, Hb, Hm. auto.
Qed.

Lemma newDate_returns (v : value) (d : date) : newDate v = inr d -> d = DateOf v.
Proof.
  unfold newDate. destruct (toString v); [discriminate |].
  intros H. now inversion H.
Qed.

(** A primitive always makes a date. *)
Lemma newDate_of_primitive (v : value) :
  (forall items, v <> VArr items) -> (forall props, v <> VObj props) ->
  newDate v = inr (DateOf v).
Proof.
  intros Harr Hobj. unfold newDate.
  destruct v as [| | [|] | n | t | items | props]; try reflexivity.
  - now contradiction (Harr items).
  - now contradiction (Hobj props).
Qed.

(** The run of [salvarHistorico] once the database is connected and the
    payload has passed the test of line 186: the two dates are built first,
    and either of them may throw; then the document is inserted. *)
Lemma salvarHistorico_validated (w : world) (reqBody : obj) (insertOne : db) :
  dbHistoria w = Some insertOne ->
  negb (truthy (get reqBody "sessionId")) || negb (truthy (get reqBody "botId"))
  || negb (truthy (optLength (get reqBody "messages"))) = false ->
  run (salvarHistorico w reqBody)
  = match newDate (get reqBody "startTime") with
    | inl e =>
        (inr (Response 500 (VObj [("error", VStr "Erro ao salvar histórico.")])),
         [ConsoleError e])
    | inr inicio =>
        match newDate (get reqBody "endTime") with
        | inl e =>
            (inr (Response 500 (VObj [("error", VStr "Erro ao salvar histórico.")])),
             [ConsoleError e])
        | inr fim =>
            let novaSessao :=
              Sessao (get reqBody "sessionId")
                     (or (get reqBody "userId") (VStr "anonimo"))
                     (get reqBody "botId") inicio fim
                     (get reqBody "messages") (DateAt (now w)) in
            match insertOne novaSessao with
            | inr _ =>
                (inr (Response 201 (VObj [("message", VStr "Histórico salvo!");
                                          ("sessionId", get reqBody "sessionId")])),
                 [InsertOne "sessoesChat" novaSessao])
            | inl e =>
                (inr (Response 500
                        (VObj [("error", VStr "Erro ao salvar histórico.")])),
                 [InsertOne "sessoesChat" novaSessao; ConsoleError e])
            end
        end
    end.
Proof.
  intros Hdb Htest.
  unfold run, salvarHistorico. mstep. rewrite Hdb, Htest.
  destruct (newDate (get reqBody "startTime")) as [e | inicio]; [reflexivity |].
  destruct (newDate (get reqBody "endTime")) as [e | fim]; [reflexivity |].
  cbn [app].
  destruct (insertOne _); reflexivity.
Qed.

Lemma salvarHistorico_rejects (w : world) (reqBody : obj) :
  dbHistoria w = None \/
  negb (truthy (get reqBody "sessionId")) || negb (truthy (get reqBody "botId"))
  || negb (truthy (optLength (get reqBody "messages"))) = true ->
  snd (run (salvarHistorico w reqBody)) = [] /\
  exists resp,
    fst (run (salvarHistorico w reqBody)) = inr resp /\
    (status resp = 400 \/ status resp = 500).
Proof.
  unfold run, salvarHistorico. mstep.
  destruct (dbHistoria w) as [insertOne |].
  - intros [H | ->]; [discriminate |]. split; [reflexivity |].
    eexists. split; [reflexivity |]. left. reflexivity.
  - intros _. split; [reflexivity |].
    eexists. split; [reflexivity |]. right. reflexivity.
Qed.

(** C7, as the handler has it. A persistence request whose payload is
    incomplete (no sessionId, no botId, or a message list that is absent or
    empty) never reaches the storage backend and is rejected: with the
    validation error (status 400, "Dados incompletos.") when the history
    database is connected, and with status 500, "Sem conexão com o banco de
    histórico.", when it is not, since that is tested first. A document is
    inserted only when the database is connected, sessionId and botId are
    present and the message list is present and not empty. *)
Theorem incomplete_payload_is_rejected (w : world) (reqBody : obj) :
  (get reqBody "sessionId" = VUndefined \/
   get reqBody "botId" = VUndefined \/
   get reqBody "messages" = VUndefined \/
   get reqBody "messages" = VArr [] ->
   run (salvarHistorico w reqBody)
   = (inr (match dbHistoria w with
           | Some _ => Response 400 (VObj [("error", VStr "Dados incompletos.")])
           | None =>
               Response 500
                 (VObj [("error", VStr "Sem conexão com o banco de histórico.")])
           end),
      [])) /\
  (forall collection doc,
     In (InsertOne collection doc) (snd (run (salvarHistorico w reqBody))) ->
     dbHistoria w <> None /\
     get reqBody "sessionId" <> VUndefined /\
     get reqBody "botId" <> VUndefined /\
     get reqBody "messages" <> VUndefined /\
     get reqBody "messages" <> VArr []).
Proof.
  split.
  - intros Hincomplete. unfold run, salvarHistorico. mstep.
    destruct (dbHistoria w) as [insertOne |]; [| reflexivity].
    rewrite (incomplete_test reqBody Hincomplete). reflexivity.
  - intros collection doc.
    destruct (dbHistoria w) as [insertOne |] eqn:Hdb.
    + destruct (negb (truthy (get reqBody "sessionId"))
                || negb (truthy (get reqBody "botId"))
                || negb (truthy (optLength (get reqBody "messages")))) eqn:Htest.
      * destruct (salvarHistorico_rejects w reqBody (or_intror Htest)) as [-> _].
        intros [].
      * intros _. apply complete_test in Htest. destruct Htest as (Hs & Hb & Hm).
        split; [discriminate |].
        repeat split; intros Heq; rewrite Heq in *; discriminate.
    + destruct (salvarHistorico_rejects w reqBody (or_introl Hdb)) as [-> _].
      intros [].
Qed.

Lemma incomplete_payload_is_rejected_witness :
  run (salvarHistorico online
         [("sessionId", VStr "s1"); ("botId", VStr "b1"); ("messages", VArr [])])
  = (inr (Response 400 (VObj [("error", VStr "Dados incompletos.")])), []).
Proof.
  apply (proj1 (incomplete_payload_is_rejected online
                  [("sessionId", VStr "s1"); ("botId", VStr "b1");
                   ("messages", VArr [])])).
  right. right. right. reflexivity.
Defined.

(** The scenario of the specification, on a server whose history database is
    not connected (yet): the answer is not the validation error. *)
Lemma incomplete_payload_counterexample :
  let reqBody := [("sessionId", VStr "s1"); ("botId", VStr "b1");
                  ("messages", VArr [])] in
  get reqBody "messages" = VArr [] /\
  dbHistoria startingUp = None /\
  run (salvarHistorico startingUp reqBody)
  = (inr (Response 500
            (VObj [("error", VStr "Sem conexão com o banco de histórico.")])),
     []) /\
  fst (run (salvarHistorico startingUp reqBody))
  <> inr (Response 400 (VObj [("error", VStr "Dados incompletos.")])).
Proof.
  cbv zeta. repeat split; try reflexivity.
  vm_compute. discriminate.
Qed.


(** C10. A persistence request that passes validation (which is reached once
    the history database is connected) is not rejected for want of a userId:
    it is never answered with the validation error, whatever is stored for it
    carries "anonimo" as its userId, and, the two dates being built from the
    times sent, the document handed to [insertOne] has the other fields as
    they were sent and the request is answered with status 201 once the
    insertion succeeds. So sessionId, botId and a non-empty message list are
    all that validation requires. *)
Theorem missing_userId_defaults_to_anonimo (w : world) (reqBody : obj)
    (insertOne : sessao -> error + unit) :
  dbHistoria w = Some insertOne ->
  truthy (get reqBody "sessionId") = true ->
  truthy (get reqBody "botId") = true ->
  truthy (optLength (get reqBody "messages")) = true ->
  get reqBody "userId" = VUndefined ->
  (forall resp,
     fst (run (salvarHistorico w reqBody)) = inr resp -> status resp <> 400) /\
  (forall collection doc,
     In (InsertOne collection doc) (snd (run (salvarHistorico w reqBody))) ->
     userId doc = VStr "anonimo") /\
  (forall inicio fim,
     newDate (get reqBody "startTime") = inr inicio ->
     newDate (get reqBody "endTime") = inr fim ->
     let doc :=
       Sessao (get reqBody "sessionId") (VStr "anonimo") (get reqBody "botId")
              inicio fim (get reqBody "messages") (DateAt (now w)) in
     filter isInsert (snd (run (salvarHistorico w reqBody)))
     = [InsertOne "sessoesChat" doc] /\
     (insertOne doc = inr tt ->
      run (salvarHistorico w reqBody)
      = (inr (Response 201 (VObj [("message", VStr "Histórico salvo!");
                                  ("sessionId", get reqBody "sessionId")])),
         [InsertOne "sessoesChat" doc]))).
Proof.
  intros Hdb Hs Hb Hm Hu.
  assert (negb (truthy (get reqBody "sessionId"))
          || negb (truthy (get reqBody "botId"))
          || negb (truthy (optLength (get reqBody "messages"))) = false) as Htest.
  { rewrite Hs, Hb, Hm. reflexivity. }
  rewrite (salvarHistorico_validated w reqBody insertOne Hdb Htest).
  rewrite Hu. change (or VUndefined (VStr "anonimo")) with (VStr "anonimo").
  destruct (newDate (get reqBody "startTime")) as [e | inicio].
  { cbn [fst snd]. split; [intros resp H; inversion H; discriminate |].
    split; [intros c d [H | []]; discriminate | intros; discriminate]. }
  destruct (newDate (get reqBody "endTime")) as [e | fim].
  { cbn [fst snd]. split; [intros resp H; inversion H; discriminate |].
    split; [intros c d [H | []]; discriminate | intros; discriminate]. }
  cbv zeta.
  destruct (insertOne _) as [e | []] eqn:Hinsert; cbn [fst snd].
  - split; [intros resp H; inversion H; discriminate |]. split.
    + intros c d [H | [H | []]]; [| discriminate]. now inversion H.
    + intros i f Hi Hf. inversion Hi; inversion Hf; subst.
      split; [reflexivity |]. rewrite Hinsert. discriminate.
  - split; [intros resp H; inversion H; discriminate |]. split.
    + intros c d [H | []]. now inversion H.
    + intros i f Hi Hf. inversion Hi; inversion Hf; subst.
      split; reflexivity.
Qed.

Lemma missing_userId_defaults_to_anonimo_witness :
  let reqBody := [("sessionId", VStr "s1"); ("botId", VStr "b1");
                  ("messages", VArr [VObj [("from", VStr "user"); ("text", VStr "oi")]])] in
  let doc :=
    Sessao (VStr "s1") (VStr "anonimo") (VStr "b1") (DateOf VUndefined)
           (DateOf VUndefined)
           (VArr [VObj [("from", VStr "user"); ("text", VStr "oi")]])
           (DateAt 1793613600000) in
  get reqBody "userId" = VUndefined /\
  run (salvarHistorico online reqBody)
  = (inr (Response 201 (VObj [("message", VStr "Histórico salvo!");
                              ("sessionId", VStr "s1")])),
     [InsertOne "sessoesChat" doc]).
Proof.
  intros reqBody doc. split; [reflexivity |].
  apply (proj2 (proj2 (missing_userId_defaults_to_anonimo online reqBody
                         (fun _ => inr tt) eq_refl eq_refl eq_refl eq_refl eq_refl))
           (DateOf VUndefined) (DateOf VUndefined) eq_refl eq_refl).
  reflexivity.
Defined.

(** ** More on the persistence endpoint *)

(** X10. Whatever a persistence request carries, at most one document is
    inserted, into the collection [sessoesChat], and it holds the sessionId,
    botId and messages exactly as they were sent, the two dates built from
    the times sent, the server's clock as [loggedAt], and a userId that is
    never falsy: the one sent, or "anonimo" in its place. *)
Theorem stored_document_is_the_payload (w : world) (reqBody : obj) :
  length (filter isInsert (snd (run (salvarHistorico w reqBody)))) <= 1 /\
  (forall collection doc,
     In (InsertOne collection doc) (snd (run (salvarHistorico w reqBody))) ->
     collection = "sessoesChat" /\
     doc = Sessao (get reqBody "sessionId")
                  (or (get reqBody "userId") (VStr "anonimo"))
                  (get reqBody "botId")
                  (DateOf (get reqBody "startTime")) (DateOf (get reqBody "endTime"))
                  (get reqBody "messages") (DateAt (now w)) /\
     truthy (userId doc) = true).
Proof.
  assert (truthy (or (get reqBody "userId") (VStr "anonimo")) = true) as Huser.
  { unfold or. destruct (truthy (get reqBody "userId")) eqn:Hu; [exact Hu | reflexivity]. }
  destruct (dbHistoria w) as [insertOne |] eqn:Hdb.
  - destruct (negb (truthy (get reqBody "sessionId"))
              || negb (truthy (get reqBody "botId"))
              || negb (truthy (optLength (get reqBody "messages")))) eqn:Htest.
    + destruct (salvarHistorico_rejects w reqBody (or_intror Htest)) as [-> _].
      split; [simpl; lia | intros c d []].
    + rewrite (salvarHistorico_validated w reqBody insertOne Hdb Htest).
      destruct (newDate (get reqBody "startTime")) as [e | inicio] eqn:Hi.
      { cbn [snd]. split; [simpl; lia | intros c d [H | []]; discriminate]. }
      destruct (newDate (get reqBody "endTime")) as [e | fim] eqn:Hf.
      { cbn [snd]. split; [simpl; lia | intros c d [H | []]; discriminate]. }
      apply newDate_returns in Hi, Hf. subst inicio fim. cbv zeta.
      destruct (insertOne _); cbn [snd].
      * split; [simpl; lia |].
        intros c d [H | [H | []]]; [| discriminate].
        inversion H; subst. auto.
      * split; [simpl; lia |].
        intros c d [H | []]. inversion H; subst. auto.
  - destruct (salvarHistorico_rejects w reqBody (or_introl Hdb)) as [-> _].
    split; [simpl; lia | intros c d []].
Qed.

Lemma stored_document_is_the_payload_witness :
  let reqBody := [("sessionId", VStr "s1"); ("userId", VStr "ana");
                  ("botId", VStr "b1"); ("startTime", VNum 1793613000000);
                  ("messages", VArr [VObj [("from", VStr "user"); ("text", VStr "oi")]])] in
  let doc :=
    Sessao (VStr "s1") (VStr "ana") (VStr "b1")
           (DateOf (VNum 1793613000000)) (DateOf VUndefined)
           (VArr [VObj [("from", VStr "user"); ("text", VStr "oi")]])
           (DateAt 1793613600000) in
  In (InsertOne "sessoesChat" doc) (snd (run (salvarHistorico online reqBody))) /\
  length (filter isInsert (snd (run (salvarHistorico online reqBody)))) <= 1 /\
  truthy (userId doc) = true.
Proof.
  intros reqBody doc.
  assert (In (InsertOne "sessoesChat" doc)
             (snd (run (salvarHistorico online reqBody)))) as Hin.
  { vm_compute. left. reflexivity. }
  split; [exact Hin |]. split.
  - exact (proj1 (stored_document_is_the_payload online reqBody)).
  - exact (proj2 (proj2 (proj2 (stored_document_is_the_payload online reqBody)
                           "sessoesChat" doc Hin))).
Defined.

(** X11. The persistence endpoint answers 201 only after the storage backend
    has accepted the document: a 201 means the database was connected, one
    document was handed to [insertOne], and that insertion succeeded. *)
Theorem saved_only_when_stored (w : world) (reqBody : obj)
    (resp : response value) :
  fst (run (salvarHistorico w reqBody)) = inr resp ->
  status resp = 201 ->
  exists insertOne doc,
    dbHistoria w = Some insertOne /\
    snd (run (salvarHistorico w reqBody)) = [InsertOne "sessoesChat" doc] /\
    insertOne doc = inr tt /\
    resp = Response 201 (VObj [("message", VStr "Histórico salvo!");
                               ("sessionId", get reqBody "sessionId")]).
Proof.
  destruct (dbHistoria w) as [insertOne |] eqn:Hdb.
  - destruct (negb (truthy (get reqBody "sessionId"))
              || negb (truthy (get reqBody "botId"))
              || negb (truthy (optLength (get reqBody "messages")))) eqn:Htest.
    + destruct (salvarHistorico_rejects w reqBody (or_intror Htest))
        as (_ & resp' & -> & Hstatus).
      intros H; inversion H; subst. intros H201. rewrite H201 in Hstatus.
      destruct Hstatus; discriminate.
    + rewrite (salvarHistorico_validated w reqBody insertOne Hdb Htest).
      destruct (newDate (get reqBody "startTime")) as [e | inicio];
        [cbn [fst]; intros H; inversion H; subst; discriminate |].
      destruct (newDate (get reqBody "endTime")) as [e | fim];
        [cbn [fst]; intros H; inversion H; subst; discriminate |].
      cbv zeta.
      destruct (insertOne _) as [e | []] eqn:Hinsert; cbn [fst snd];
        intros H; inversion H; subst; [discriminate |].
      intros _. eexists _, _. split; [reflexivity |]. split; [reflexivity |].
      split; [exact Hinsert | reflexivity].
  - destruct (salvarHistorico_rejects w reqBody (or_introl Hdb))
      as (_ & resp' & -> & Hstatus).
    intros H; inversion H; subst. intros H201. rewrite H201 in Hstatus.
    destruct Hstatus; discriminate.
Qed.

Lemma saved_only_when_stored_witness :
  let reqBody := [("sessionId", VStr "s1"); ("botId", VStr "b1");
                  ("messages", VArr [VStr "oi"])] in
  exists insertOne doc,
    dbHistoria online = Some insertOne /\
    snd (run (salvarHistorico online reqBody)) = [InsertOne "sessoesChat" doc] /\
    insertOne doc = inr tt /\
    Response 201 (VObj [("message", VStr "Histórico salvo!");
                        ("sessionId", VStr "s1")])
    = Response 201 (VObj [("message", VStr "Histórico salvo!");
                          ("sessionId", get reqBody "sessionId")]).
Proof.
  intros reqBody.
  exact (saved_only_when_stored online reqBody
           (Response 201 (VObj [("message", VStr "Histórico salvo!");
                                ("sessionId", VStr "s1")]))
           eq_refl eq_refl).
Defined.

(** X12. When the storage backend refuses the document of a complete payload
    whose two dates could be built, the failure is reported, not hidden: the
    insertion was tried once, the error is logged, and the answer is status
    500 with "Erro ao salvar histórico.". *)
Theorem failed_insert_is_reported (w : world) (reqBody : obj) (insertOne : db)
    (inicio fim : date) (e : error) :
  dbHistoria w = Some insertOne ->
  truthy (get reqBody "sessionId") = true ->
  truthy (get reqBody "botId") = true ->
  truthy (optLength (get reqBody "messages")) = true ->
  newDate (get reqBody "startTime") = inr inicio ->
  newDate (get reqBody "endTime") = inr fim ->
  insertOne (Sessao (get reqBody "sessionId")
                    (or (get reqBody "userId") (VStr "anonimo"))
                    (get reqBody "botId") inicio fim
                    (get reqBody "messages") (DateAt (now w))) = inl e ->
  exists doc,
    run (salvarHistorico w reqBody)
    = (inr (Response 500 (VObj [("error", VStr "Erro ao salvar histórico.")])),
       [InsertOne "sessoesChat" doc; ConsoleError e]).
Proof.
  intros Hdb Hs Hb Hm Hi Hf Hinsert.
  assert (negb (truthy (get reqBody "sessionId"))
          || negb (truthy (get reqBody "botId"))
          || negb (truthy (optLength (get reqBody "messages"))) = false) as Htest.
  { rewrite Hs, Hb, Hm. reflexivity. }
  rewrite (salvarHistorico_validated w reqBody insertOne Hdb Htest), Hi, Hf.
  cbv zeta. rewrite Hinsert. eexists. reflexivity.
Qed.

Lemma failed_insert_is_reported_witness :
  let reqBody := [("sessionId", VStr "s1"); ("botId", VStr "b1");
                  ("messages", VArr [VStr "oi"])] in
  exists doc,
    run (salvarHistorico overQuota reqBody)
    = (inr (Response 500 (VObj [("error", VStr "Erro ao salvar histórico.")])),
       [InsertOne "sessoesChat" doc; ConsoleError quotaExceeded]).
Proof.
  intros reqBody.
  exact (failed_insert_is_reported overQuota reqBody (fun _ => inl quotaExceeded)
           (DateOf VUndefined) (DateOf VUndefined) quotaExceeded
           eq_refl eq_refl eq_refl eq_refl eq_refl eq_refl eq_refl).
Defined.

(** X13. The test of the message list only asks for a truthy [length]: a
    value that is not a list passes it too. A non-empty string sent as
    [messages], in a payload whose two dates can be built, is stored as it
    is. *)
Theorem messages_not_checked_to_be_list (w : world) (reqBody : obj)
    (insertOne : db) (texto : string) (inicio fim : date) :
  dbHistoria w = Some insertOne ->
  truthy (get reqBody "sessionId") = true ->
  truthy (get reqBody "botId") = true ->
  get reqBody "messages" = VStr texto ->
  texto <> "" ->
  newDate (get reqBody "startTime") = inr inicio ->
  newDate (get reqBody "endTime") = inr fim ->
  exists doc,
    filter isInsert (snd (run (salvarHistorico w reqBody)))
    = [InsertOne "sessoesChat" doc] /\
    messages doc = VStr texto.
Proof.
  intros Hdb Hs Hb Hmsg Hnonempty Hi Hf.
  assert (negb (truthy (get reqBody "sessionId"))
          || negb (truthy (get reqBody "botId"))
          || negb (truthy (optLength (get reqBody "messages"))) = false) as Htest.
  { rewrite Hs, Hb, Hmsg. simpl.
    destruct texto as [| c rest]; [contradiction | reflexivity]. }
  rewrite (salvarHistorico_validated w reqBody insertOne Hdb Htest), Hi, Hf.
  cbv zeta. rewrite Hmsg.
  destruct (insertOne _); eexists; split; reflexivity.
Qed.

Lemma messages_not_checked_to_be_list_witness :
  let reqBody := [("sessionId", VStr "s1"); ("botId", VStr "b1");
                  ("messages", VStr "oi")] in
  exists doc,
    filter isInsert (snd (run (salvarHistorico online reqBody)))
    = [InsertOne "sessoesChat" doc] /\
    messages doc = VStr "oi".
Proof.
  intros reqBody.
  apply (messages_not_checked_to_be_list online reqBody (fun _ => inr tt) "oi"
           (DateOf VUndefined) (DateOf VUndefined)
           eq_refl eq_refl eq_refl eq_refl).
  - discriminate.
  - reflexivity.
  - reflexivity.
Defined.

(** X14. The identifiers are tested for truthiness, not for presence: with the
    database connected, a sessionId or botId that is [0], [false], [null] or
    the empty string is rejected like a missing one, with status 400 and
    nothing stored; so is a [messages] whose [length] is falsy. *)
Theorem falsy_identifier_is_rejected (w : world) (reqBody : obj)
    (insertOne : db) :
  dbHistoria w = Some insertOne ->
  truthy (get reqBody "sessionId") = false \/
  truthy (get reqBody "botId") = false \/
  truthy (optLength (get reqBody "messages")) = false ->
  run (salvarHistorico w reqBody)
  = (inr (Response 400 (VObj [("error", VStr "Dados incompletos.")])), []).
Proof.
  intros Hdb Hfalsy.
  unfold run, salvarHistorico. mstep. rewrite Hdb.
  destruct Hfalsy as [-> | [-> | ->]]; cbn [negb orb];
    rewrite ?orb_true_r; reflexivity.
Qed.

Lemma falsy_identifier_is_rejected_witness :
  run (salvarHistorico online
         [("sessionId", VNum 0); ("botId", VStr "b1");
          ("messages", VArr [VStr "oi"])])
  = (inr (Response 400 (VObj [("error", VStr "Dados incompletos.")])), []).
Proof.
  apply (falsy_identifier_is_rejected online _ (fun _ => inr tt) eq_refl).
  left. reflexivity.
Defined.

(** X18. A start time that does not convert to a primitive (an object with an
    own [toString] property, which JSON cannot make callable) stops a
    validated request before anything is stored: [new Date] throws, the error
    is logged, and the answer is status 500 with "Erro ao salvar histórico.".
    The same holds of such an end time after a start time that made a date. *)
Theorem unconvertible_time_stores_nothing (w : world) (reqBody : obj)
    (insertOne : db) (props : obj) :
  dbHistoria w = Some insertOne ->
  truthy (get reqBody "sessionId") = true ->
  truthy (get reqBody "botId") = true ->
  truthy (optLength (get reqBody "messages")) = true ->
  get reqBody "startTime" = VObj props \/
  ((exists inicio, newDate (get reqBody "startTime") = inr inicio) /\
   get reqBody "endTime" = VObj props) ->
  hasOwn props "toString" = true ->
  exists e,
    run (salvarHistorico w reqBody)
    = (inr (Response 500 (VObj [("error", VStr "Erro ao salvar histórico.")])),
       [ConsoleError e]) /\
    name e = "TypeError".
Proof.
  intros Hdb Hs Hb Hm Htime Hown.
  assert (negb (truthy (get reqBody "sessionId"))
          || negb (truthy (get reqBody "botId"))
          || negb (truthy (optLength (get reqBody "messages"))) = false) as Htest.
  { rewrite Hs, Hb, Hm. reflexivity. }
  assert (newDate (VObj props)
          = inl (TypeError "Cannot convert object to primitive value")) as Hthrows.
  { unfold newDate. cbn [toString]. rewrite Hown. reflexivity. }
  rewrite (salvarHistorico_validated w reqBody insertOne Hdb Htest).
  destruct Htime as [-> | [[inicio ->] ->]]; rewrite Hthrows;
    eexists; split; reflexivity.
Qed.

Lemma unconvertible_time_stores_nothing_witness :
  exists e,
    run (salvarHistorico online
           [("sessionId", VStr "s1"); ("botId", VStr "b1");
            ("startTime", VObj [("toString", VStr "x")]);
            ("messages", VArr [VStr "oi"])])
    = (inr (Response 500 (VObj [("error", VStr "Erro ao salvar histórico.")])),
       [ConsoleError e]) /\
    name e = "TypeError".
Proof.
  apply (unconvertible_time_stores_nothing online
           [("sessionId", VStr "s1"); ("botId", VStr "b1");
            ("startTime", VObj [("toString", VStr "x")]);
            ("messages", VArr [VStr "oi"])]
           (fun _ => inr tt)
           [("toString", VStr "x")] eq_refl eq_refl eq_refl eq_refl).
  - left. reflexivity.
  - reflexivity.
Defined.

(** ** Connecting to the databases *)

(** X15. [initializeDatabases] connects to the logs database first and gives
    up when that fails: the history database is then not even tried, and both
    [dbLogs] and [dbHistoria] stay unassigned. *)
Theorem logs_failure_stops_initialization (m : mongo) (e : error) :
  clientConnect m (MONGO_URI_LOGS m) = inl e ->
  initializeDatabases m unassigned
  = (inl e, ModuleState None None [(MONGO_URI_LOGS m, "IIW2023B_Logs")]).
Proof.
  intros Hlogs. unfold initializeDatabases, connectToMongoDB.
  rewrite Hlogs. reflexivity.
Qed.

Lemma logs_failure_stops_initialization_witness :
  clientConnect logsDown (MONGO_URI_HISTORIA logsDown) = inr tt /\
  initializeDatabases logsDown unassigned
  = (inl connectionRefused,
     ModuleState None None [(Some "mongodb://logs", "IIW2023B_Logs")]).
Proof.
  split; [reflexivity |].
  exact (logs_failure_stops_initialization logsDown connectionRefused eq_refl).
Defined.

(** X16. [dbHistoria] is assigned exactly when [initializeDatabases] succeeds,
    that is when both connections succeed. When the logs database connects
    and the history database does not, [dbLogs] is assigned, [dbHistoria] is
    not, and the error of the second connection is the one that comes out. *)
Theorem dbHistoria_assigned_only_on_success (m : mongo) :
  (var_dbHistoria (snd (initializeDatabases m unassigned)) <> None <->
   fst (initializeDatabases m unassigned) = inr tt) /\
  (fst (initializeDatabases m unassigned) = inr tt <->
   (exists u, clientConnect m (MONGO_URI_LOGS m) = inr u) /\
   (exists u, clientConnect m (MONGO_URI_HISTORIA m) = inr u)) /\
  (forall u e,
     clientConnect m (MONGO_URI_LOGS m) = inr u ->
     clientConnect m (MONGO_URI_HISTORIA m) = inl e ->
     initializeDatabases m unassigned
     = (inl e,
        ModuleState (Some (clientDb m (MONGO_URI_LOGS m) "IIW2023B_Logs")) None
          [(MONGO_URI_LOGS m, "IIW2023B_Logs");
           (MONGO_URI_HISTORIA m, "chatbotHistoriaDB")])).
Proof.
  unfold initializeDatabases, connectToMongoDB.
  destruct (clientConnect m (MONGO_URI_LOGS m)) as [e | u] eqn:Hlogs;
    cbn [fst snd var_dbLogs var_dbHistoria connectCalls unassigned].
  { split; [split; [intros H; now contradiction H | discriminate] |].
    split; [split; [discriminate | intros [[u Hu] _]; discriminate] |].
    intros u e' H. discriminate. }
  destruct (clientConnect m (MONGO_URI_HISTORIA m)) as [e | u'] eqn:Hhist;
    cbn [fst snd var_dbLogs var_dbHistoria connectCalls app].
  { split; [split; [intros H; now contradiction H | discriminate] |].
    split; [split; [discriminate | intros [_ [u' Hu]]; discriminate] |].
    intros u0 e' _ H. inversion H. reflexivity. }
  split; [split; [reflexivity | discriminate] |].
  split; [split; [intros _; split; eexists; reflexivity | reflexivity] |].
  intros u0 e' _ H. discriminate.
Qed.

Lemma dbHistoria_assigned_only_on_success_witness :
  initializeDatabases historiaDown unassigned
  = (inl connectionRefused,
     ModuleState (Some (clientDb historiaDown (Some "mongodb://logs") "IIW2023B_Logs"))
       None
       [(Some "mongodb://logs", "IIW2023B_Logs");
        (Some "mongodb://historia", "chatbotHistoriaDB")]).
Proof.
  exact (proj2 (proj2 (dbHistoria_assigned_only_on_success historiaDown))
           tt connectionRefused eq_refl eq_refl).
Defined.

(** X17. Once both connections have succeeded, a complete session payload
    whose two dates can be built is stored through the handle of the database
    [chatbotHistoriaDB] obtained from [MONGO_URI_HISTORIA] (never through the
    logs database): the request is answered 201 when that handle accepts the
    document, and 500 with "Erro ao salvar histórico." when it refuses it. *)
Theorem sessions_go_to_the_history_database (m : mongo) (w : world)
    (reqBody : obj) (u u' : unit) (inicio fim : date) :
  clientConnect m (MONGO_URI_LOGS m) = inr u ->
  clientConnect m (MONGO_URI_HISTORIA m) = inr u' ->
  truthy (get reqBody "sessionId") = true ->
  truthy (get reqBody "botId") = true ->
  truthy (optLength (get reqBody "messages")) = true ->
  newDate (get reqBody "startTime") = inr inicio ->
  newDate (get reqBody "endTime") = inr fim ->
  let s := snd (initializeDatabases m unassigned) in
  let doc :=
    Sessao (get reqBody "sessionId")
           (or (get reqBody "userId") (VStr "anonimo"))
           (get reqBody "botId") inicio fim
           (get reqBody "messages") (DateAt (now w)) in
  connectCalls s
  = [(MONGO_URI_LOGS m, "IIW2023B_Logs");
     (MONGO_URI_HISTORIA m, "chatbotHistoriaDB")] /\
  run (salvarHistorico (serving w s) reqBody)
  = match clientDb m (MONGO_URI_HISTORIA m) "chatbotHistoriaDB" doc with
    | inr _ =>
        (inr (Response 201 (VObj [("message", VStr "Histórico salvo!");
                                  ("sessionId", get reqBody "sessionId")])),
         [InsertOne "sessoesChat" doc])
    | inl e =>
        (inr (Response 500 (VObj [("error", VStr "Erro ao salvar histórico.")])),
         [InsertOne "sessoesChat" doc; ConsoleError e])
    end.
Proof.
  intros Hlogs Hhist Hs Hb Hm Hi Hf s doc.
  assert (s = ModuleState (Some (clientDb m (MONGO_URI_LOGS m) "IIW2023B_Logs"))
                (Some (clientDb m (MONGO_URI_HISTORIA m) "chatbotHistoriaDB"))
                [(MONGO_URI_LOGS m, "IIW2023B_Logs");
                 (MONGO_URI_HISTORIA m, "chatbotHistoriaDB")]) as ->.
  { unfold s, initializeDatabases, connectToMongoDB. rewrite Hlogs. cbn.
    rewrite Hhist. reflexivity. }
  split; [reflexivity |].
  rewrite (salvarHistorico_validated
             (serving w (ModuleState _ _ _)) reqBody
             (clientDb m (MONGO_URI_HISTORIA m) "chatbotHistoriaDB") eq_refl)
    by (rewrite Hs, Hb, Hm; reflexivity).
  rewrite Hi, Hf. reflexivity.
Qed.

Lemma sessions_go_to_the_history_database_witness :
  run (salvarHistorico
         (serving startingUp (snd (initializeDatabases atlas unassigned)))
         [("sessionId", VStr "cheia"); ("botId", VStr "b1");
          ("messages", VArr [VStr "oi"])])
  = (inr (Response 500 (VObj [("error", VStr "Erro ao salvar histórico.")])),
     [InsertOne "sessoesChat"
        (Sessao (VStr "cheia") (VStr "anonimo") (VStr "b1") (DateOf VUndefined)
                (DateOf VUndefined) (VArr [VStr "oi"]) (DateAt 1793613600000));
      ConsoleError quotaExceeded]).
Proof.
  exact (proj2 (sessions_go_to_the_history_database atlas startingUp
                  [("sessionId", VStr "cheia"); ("botId", VStr "b1");
                   ("messages", VArr [VStr "oi"])]
                  tt tt (DateOf VUndefined) (DateOf VUndefined)
                  eq_refl eq_refl eq_refl eq_refl eq_refl eq_refl eq_refl)).
Defined.

(** ** The weather function *)

Ltac absorbed :=
  eexists; split; [reflexivity |];
  repeat (first [split | intro]); congruence.

(** X6. Once the location has been printed into the URL (stated for a
    location whose numbers are safe integers), [getWeather] never throws. It
    makes exactly one request, and its result is decided by the first thing
    that fails: the request itself, or one of the reads [data.name],
    [data.main], [main.temp], [data.weather], [weather[0]] and
    [weather[0].description], in that order. A failure gives the error payload
    with the message of that failure; when nothing fails the result is the
    three weather fields. *)
Theorem getWeather_absorbs_failures (w : world) (args : obj) (loc : string) :
  toString (get args "location") = inr loc ->
  printsExactly (get args "location") = true ->
  let url := weatherUrl loc (envToString (OPENWEATHER_API_KEY w)) in
  let failed (e : error) :=
    VObj [("error", VStr ("Erro ao obter o clima: " ++ message e))] in
  exists result,
    run (getWeather w args) = (inr result, [HttpGet url]) /\
    (forall e, axiosGet w url = inl e -> result = failed e) /\
    (forall data,
       axiosGet w url = inr data ->
       (forall e, member data "name" = inl e -> result = failed e) /\
       (forall name,
          member data "name" = inr name ->
          (forall e, member data "main" = inl e -> result = failed e) /\
          (forall main,
             member data "main" = inr main ->
             (forall e, member main "temp" = inl e -> result = failed e) /\
             (forall temp,
                member main "temp" = inr temp ->
                (forall e, member data "weather" = inl e -> result = failed e) /\
                (forall weather,
                   member data "weather" = inr weather ->
                   (forall e, first weather = inl e -> result = failed e) /\
                   (forall weather0,
                      first weather = inr weather0 ->
                      (forall e,
                         member weather0 "description" = inl e ->
                         result = failed e) /\
                      (forall description,
                         member weather0 "description" = inr description ->
                         result = VObj [("location", name); ("temperature", temp);
                                        ("description", description)]))))))).
Proof.
  intros Hloc _ url failed. subst failed.
  unfold run, getWeather. step. rewrite Hloc. simpl. fold url.
  destruct (axiosGet w url) as [e | data] eqn:Hget; simpl;
    [absorbed |].
  destruct (member data "name") as [e | name] eqn:Hname; simpl; [absorbed |].
  destruct (member data "main") as [e | main] eqn:Hmain; simpl; [absorbed |].
  destruct (member main "temp") as [e | temp] eqn:Htemp; simpl; [absorbed |].
  destruct (member data "weather") as [e | weather] eqn:Hweather; simpl;
    [absorbed |].
  destruct (first weather) as [e | weather0] eqn:Hfirst; simpl; [absorbed |].
  destruct (member weather0 "description") as [e | description] eqn:Hdesc; simpl;
    absorbed.
Qed.

Lemma getWeather_absorbs_failures_witness :
  run (getWeather brokenWeather [("location", VStr "Recife")])
  = (inr (VObj [("error",
                 VStr ("Erro ao obter o clima: "
                       ++ message (readOfNullish "null" "temp")))]),
     [HttpGet "https://api.openweathermap.org/data/2.5/weather?q=Recife&appid=chave&units=metric&lang=pt_br"]).
Proof.
  destruct (getWeather_absorbs_failures brokenWeather [("location", VStr "Recife")]
              "Recife" eq_refl eq_refl) as (result & Hrun & _ & Hdata).
  rewrite Hrun. f_equal. f_equal.
  destruct (Hdata _ eq_refl) as (_ & Hname).
  destruct (Hname _ eq_refl) as (_ & Hmain).
  destruct (Hmain _ eq_refl) as (Htemp & _).
  exact (Htemp _ eq_refl).
Defined.
